(** * AI-error-assistant: the [POST /analyze] endpoint of [app.py]

    A shallow embedding of [app.py]: the module-level start-up code
    (reading [GROQ_API_KEY]), the request model [AnalyzeRequest], the
    handler [analyze] with its f-string prompt, the single
    [requests.post] call and the unguarded indexing of the decoded reply.

    Python values are modelled by [pyval] (dictionaries as [gmap]s with
    string keys, as [json()] and the [json=] argument have them), raised
    exceptions by [exn], and the handler runs in a small state-and-error
    monad over the process state: the module globals and the log of
    outbound calls made so far. *)

From Stdlib Require Import ZArith String Ascii.
From stdpp Require Import base option strings list gmap relations.

Set Warnings "-register-all".

(** ** Python values *)

(** The values [response.json()] can produce and [requests.post(json=...)]
    accepts.  A character of a [str] is one [ascii] of the Rocq string; the
    handler only concatenates strings, so nothing below depends on how a
    text is cut into characters. *)
Inductive pyval : Type :=
  | PNone
  | PBool (b : bool)
  | PInt (z : Z)
  | PFloat (lexeme : string)
  | PStr (s : string)
  | PList (l : list pyval)
  | PDict (d : gmap string pyval).

(** What stands between the brackets of a subscription [v[k]]. *)
Inductive subscript : Type :=
  | SKey (k : string)
  | SIdx (i : Z).

(** The exceptions that can leave [app.py]. *)
Inductive exn : Type :=
  | RuntimeError (msg : string)
  | RequestException (detail : string)
  | JSONDecodeError
  | KeyError (k : subscript)
  | IndexError
  | TypeError.

(** ** Strings *)

Module Str.

Definition nl : string := String "010"%char EmptyString.

(** [occurs_in s t]: the text [s] appears verbatim inside [t]. *)
Definition occurs_in (s t : string) : Prop :=
  ∃ pre post : string, t = pre +:+ s +:+ post.

(** Python's [s in t] on two [str]. *)
Fixpoint contains (s t : string) : bool :=
  if String.prefix s t then true
  else match t with
       | EmptyString => false
       | String _ t' => contains s t'
       end.

End Str.

(** ** The request model *)

(** [class AnalyzeRequest(BaseModel)]: a validated request, as the handler
    receives it.  [error] is [None] for a JSON [null]. *)
Record AnalyzeRequest : Type := {
  code : string;
  error : option string;
}.

(** ** The prompt *)

(** [x or d] on a [str]: the empty string is falsy. *)
Definition str_or (x d : string) : string :=
  if decide (x = EmptyString) then d else x.

(** [x or d] on a [str | None]: [None] and the empty string are falsy. *)
Definition opt_str_or (x : option string) (d : string) : string :=
  match x with
  | None => d
  | Some s => str_or s d
  end.

(** The three constant pieces of the f-string, around the two fields. *)
Definition prompt_head : string :=
  Str.nl +:+
  "You are a coding tutor/assistant of AI and Data Science bootcamp students. Your role is to support the students in learning Python. For this reason your role is to explain the errors their codes get, why, and to guide them to fix the code and also learn. Importantly, you must not provide the solution code itself, and only guidance. " +:+ Str.nl +:+
  Str.nl +:+
  "Student code:" +:+ Str.nl.

Definition prompt_mid : string :=
  Str.nl +:+
  Str.nl +:+
  "Error message:" +:+ Str.nl.

Definition prompt_tail : string :=
  Str.nl +:+
  Str.nl +:+
  "Explain:" +:+ Str.nl +:+
  "1. What is the issue?" +:+ Str.nl +:+
  "2. Why did it happen?" +:+ Str.nl +:+
  "3. How to fix it?" +:+ Str.nl +:+
  "4. Give a minimal example or a hint." +:+ Str.nl.

(** The f-string of [analyze]. *)
Definition render_prompt (req : AnalyzeRequest) : string :=
  prompt_head +:+
  str_or (code req) "[EMPTY CODE]" +:+
  prompt_mid +:+
  opt_str_or (error req) "No error message" +:+
  prompt_tail.

(** ** Subscription *)

(** Index arithmetic of a sequence of length [n]: a negative index counts
    from the end; out of range there is no element. *)
Definition seq_index (n : nat) (i : Z) : option nat :=
  if decide (0 ≤ i)%Z
  then if decide (i < Z.of_nat n)%Z then Some (Z.to_nat i) else None
  else if decide (- Z.of_nat n ≤ i)%Z then Some (Z.to_nat (Z.of_nat n + i)) else None.

(** The one-character string at position [n] of [s]. *)
Definition str_get (s : string) (n : nat) : option string :=
  (λ c, String c EmptyString) <$> String.get n s.

(** [v[k]].  A dictionary decoded from JSON has string keys only, so an
    integer subscript is never one of its keys; a list or a [str] takes an
    integer; nothing else can be subscripted. *)
Definition getitem (v : pyval) (k : subscript) : exn + pyval :=
  match v, k with
  | PDict d, SKey key =>
      match d !! key with
      | Some x => inr x
      | None => inl (KeyError k)
      end
  | PDict _, SIdx _ => inl (KeyError k)
  | PList l, SIdx i =>
      match seq_index (length l) i ≫= (l !!.) with
      | Some x => inr x
      | None => inl IndexError
      end
  | PStr s, SIdx i =>
      match seq_index (String.length s) i ≫= str_get s with
      | Some c => inr (PStr c)
      | None => inl IndexError
      end
  | _, _ => inl TypeError
  end.

(** ** HTTP *)

(** The arguments of one [requests.post(url, headers=..., json=...)]. *)
Record HttpRequest : Type := {
  url : string;
  headers : gmap string string;
  json : pyval;
}.

(** What the handler can see of a [requests.Response]: the status and the
    decoded body, [None] when the body is not JSON. *)
Record Response : Type := {
  status_code : Z;
  body : option pyval;
}.

(** [response.json()] *)
Definition response_json (r : Response) : exn + pyval :=
  match body r with
  | Some j => inr j
  | None => inl JSONDecodeError
  end.

(** ** Process state *)

(** The names the module body binds: the credential and the application.
    Of the application only the routes that [app.py] registers itself, with
    its decorators, are recorded; what [FastAPI()] brings along, such as
    the documentation pages, is not. *)
Record ModuleState : Type := {
  GROQ_API_KEY : string;
  routes : list (string * string);
}.

(** The state a request runs in: the module globals and, as a ghost
    record of the effects, every outbound call issued so far. *)
Record World : Type := {
  module_state : ModuleState;
  outbound : list HttpRequest;
}.

(** [os.getenv(k)] *)
Definition os_getenv (environ : gmap string string) (k : string) : option string :=
  environ !! k.

(** ** The monad of the handler: state and exceptions *)

Definition M (A : Type) : Type := World → (exn + A) * World.

#[global] Instance M_ret : MRet M := λ A x w, (inr x, w).

#[global] Instance M_bind : MBind M := λ A B f m w,
  match m w with
  | (inr x, w') => f x w'
  | (inl e, w') => (inl e, w')
  end.

(** A pure computation that may raise. *)
Definition lift {A : Type} (r : exn + A) : M A := λ w, (r, w).

(** Reading the global [GROQ_API_KEY]. *)
Definition read_GROQ_API_KEY : M string :=
  λ w, (inr (GROQ_API_KEY (module_state w)), w).

(** Rebinding a module global: the write the handler never performs. *)
Definition write_GROQ_API_KEY (k : string) : M unit :=
  λ w, (inr (),
        {| module_state := {| GROQ_API_KEY := k; routes := routes (module_state w) |};
           outbound := outbound w |}).

Definition groq_url : string := "https://api.groq.com/openai/v1/chat/completions".

Definition groq_model : string := "llama-3.1-8b-instant".

(** The request [analyze] builds from the credential and the prompt. *)
Definition outbound_request (key prompt : string) : HttpRequest :=
  {| url := groq_url;
     headers := {[ "Authorization" := "Bearer " +:+ key;
                   "Content-Type" := "application/json" ]};
     json := PDict {[ "model" := PStr groq_model;
                      "messages" :=
                        PList [PDict {[ "role" := PStr "user";
                                        "content" := PStr prompt ]}] ]} |}.

Section Service.

(** [load_dotenv()]: the loader of python-dotenv, run on [os.environ]
    before the credential is read. *)
Variable load_dotenv : gmap string string → gmap string string.

(** The remote end: given the calls made before, the outcome of a call is
    an exception raised by [requests.post] or a response. *)
Variable network : list HttpRequest → HttpRequest → exn + Response.

(** The module body, run once when the module is imported. *)
Definition import_module (environ : gmap string string) : exn + ModuleState :=
  let environ' := load_dotenv environ in
  match os_getenv environ' "GROQ_API_KEY" with
  | None => inl (RuntimeError "GROQ_API_KEY is not set")
  | Some k => inr {| GROQ_API_KEY := k; routes := [("POST", "/analyze")] |}
  end.

(** [requests.post]: one outbound call, recorded, answered by the network. *)
Definition requests_post (r : HttpRequest) : M Response :=
  λ w, (network (outbound w) r,
        {| module_state := module_state w; outbound := outbound w ++ [r] |}).

(** [def analyze(req: AnalyzeRequest)] *)
Definition analyze (req : AnalyzeRequest) : M pyval :=
  let prompt := render_prompt req in
  key ← read_GROQ_API_KEY;
  response ← requests_post (outbound_request key prompt);
  reply ← lift (response_json response);
  choices ← lift (getitem reply (SKey "choices"));
  first ← lift (getitem choices (SIdx 0));
  message ← lift (getitem first (SKey "message"));
  content ← lift (getitem message (SKey "content"));
  mret (PDict {[ "analysis" := content ]}).

(** The life of the process: the module is imported, which either aborts
    or leaves the application ready; a ready application handles one
    request after the other.  A request either reaches [analyze] with a
    validated body, or is answered before it does (a body that fails
    validation, another path or method): then no code of [app.py] runs and
    its state is left as it is. *)
Inductive proc : Type :=
  | Booting (environ : gmap string string)
  | Serving (w : World)
  | Aborted (e : exn).

Inductive proc_step : proc → proc → Prop :=
  | step_ready environ m :
      import_module environ = inr m →
      proc_step (Booting environ) (Serving {| module_state := m; outbound := [] |})
  | step_abort environ e :
      import_module environ = inl e →
      proc_step (Booting environ) (Aborted e)
  | step_request w req :
      proc_step (Serving w) (Serving (analyze req w).2)
  | step_turned_away w :
      proc_step (Serving w) (Serving w).

End Service.

(** ** JSON paths *)

(** The path [choices[0].message.content] of the reply, read as a path in a
    JSON document: a member of an object, an element of an array. *)
Definition json_member (k : string) (j : pyval) : option pyval :=
  match j with
  | PDict d => d !! k
  | _ => None
  end.

Definition json_element (i : nat) (j : pyval) : option pyval :=
  match j with
  | PList l => l !! i
  | _ => None
  end.

Definition completion_text (reply : pyval) : option pyval :=
  choices ← json_member "choices" reply;
  first ← json_element 0 choices;
  message ← json_member "message" first;
  json_member "content" message.

(** The content of the first message of the call made last. *)
Definition last_prompt (w : World) : option pyval :=
  r ← last (outbound w);
  messages ← json_member "messages" (json r);
  first ← json_element 0 messages;
  json_member "content" first.

(** The reply of the remote end for an answer [c]. *)
Definition completion_reply (c : pyval) : pyval :=
  PDict {[ "choices" := PList [PDict {[ "message" := PDict {[ "content" := c ]} ]}] ]}.

(** The errors of a failed subscription. *)
Definition lookup_error (e : exn) : Prop :=
  match e with
  | KeyError _ | IndexError | TypeError => True
  | _ => False
  end.

Definition is_2xx (r : Response) : Prop := (200 ≤ status_code r < 300)%Z.

(** What the handler makes of the outcome of its call. *)
Definition unwrap (outcome : exn + Response) : exn + pyval :=
  match outcome with
  | inl e => inl e
  | inr response =>
      match response_json response with
      | inl e => inl e
      | inr reply =>
          match getitem reply (SKey "choices") with
          | inl e => inl e
          | inr choices =>
              match getitem choices (SIdx 0) with
              | inl e => inl e
              | inr first =>
                  match getitem first (SKey "message") with
                  | inl e => inl e
                  | inr message =>
                      match getitem message (SKey "content") with
                      | inl e => inl e
                      | inr content => inr (PDict {[ "analysis" := content ]})
                      end
                  end
              end
          end
      end
  end.

(** The call a run of [analyze] makes in the state [w]. *)
Definition call_of (w : World) (req : AnalyzeRequest) : HttpRequest :=
  outbound_request (GROQ_API_KEY (module_state w)) (render_prompt req).

(** What holds of every state of a process started in [environ]. *)
Definition proc_inv load_dotenv (environ : gmap string string) (p : proc) : Prop :=
  match p with
  | Booting environ' => environ' = environ
  | Serving w =>
      os_getenv (load_dotenv environ) "GROQ_API_KEY"
        = Some (GROQ_API_KEY (module_state w))
      ∧ routes (module_state w) = [("POST", "/analyze")]
  | Aborted e =>
      os_getenv (load_dotenv environ) "GROQ_API_KEY" = None
      ∧ e = RuntimeError "GROQ_API_KEY is not set"
  end.

(** [load_dotenv()] with its default arguments, for a [.env] file that
    defines the variables [file]: a variable the environment already has
    keeps its value. *)
Definition dotenv_merge (file environ : gmap string string) : gmap string string :=
  environ ∪ file.

(** ** Sample inputs *)

Module Sample.

Definition req : AnalyzeRequest :=
  {| code := "print(x)"; error := Some "NameError: name 'x' is not defined" |}.

Definition environ_with_key : gmap string string :=
  {[ "PATH" := "/usr/bin"; "GROQ_API_KEY" := "gsk_one" ]}.

Definition environ_without_key : gmap string string :=
  {[ "PATH" := "/usr/bin" ]}.

(** No [.env] file, or an empty one. *)
Definition no_dotenv : gmap string string → gmap string string :=
  dotenv_merge ∅.

(** The state right after a start in [environ_with_key]. *)
Definition world_one : World :=
  {| module_state := {| GROQ_API_KEY := "gsk_one"; routes := [("POST", "/analyze")] |};
     outbound := [] |}.

(** Another credential, and a call already made. *)
Definition world_two : World :=
  {| module_state := {| GROQ_API_KEY := "gsk_two"; routes := [("POST", "/analyze")] |};
     outbound := [outbound_request "gsk_two" "earlier"] |}.

Definition net_down : list HttpRequest → HttpRequest → exn + Response :=
  λ _ _, inl (RequestException "connection refused").

Definition net_ok : list HttpRequest → HttpRequest → exn + Response :=
  λ _ _, inr {| status_code := 200;
                body := Some (completion_reply (PStr "Issue: ...")) |}.

(** A reply without [choices], as an error document has it. *)
Definition error_document : pyval :=
  PDict {[ "error" := PDict {[ "message" := PStr "Invalid API Key" ]} ]}.

Definition net_unauthorized : list HttpRequest → HttpRequest → exn + Response :=
  λ _ _, inr {| status_code := 401; body := Some error_document |}.

(** A server error whose body nevertheless has the shape of a completion. *)
Definition net_500_completion : list HttpRequest → HttpRequest → exn + Response :=
  λ _ _, inr {| status_code := 500;
                body := Some (completion_reply (PStr "Issue: ...")) |}.

End Sample.

(** ** The calls of a process *)

(** The shape of every call [analyze] can make with the credential [key]:
    the fixed address, the two headers, the fixed model and one user
    message that is the prompt of some request. *)
Definition groq_call (key : string) (r : HttpRequest) : Prop :=
  url r = groq_url
  ∧ headers r = {[ "Authorization" := "Bearer " +:+ key;
                   "Content-Type" := "application/json" ]}
  ∧ ∃ req : AnalyzeRequest,
      json r = PDict {[ "model" := PStr groq_model;
                        "messages" :=
                          PList [PDict {[ "role" := PStr "user";
                                          "content" := PStr (render_prompt req) ]}] ]}.

(** A remote end that gives the same outcome to every call. *)
Definition always (outcome : exn + Response) :
    list HttpRequest → HttpRequest → exn + Response :=
  λ _ _, outcome.

(** ** Further sample inputs *)

Module Edge.

(** The variable is set, to nothing. *)
Definition environ_empty_key : gmap string string :=
  {[ "GROQ_API_KEY" := EmptyString ]}.

Definition world_empty_key : World :=
  {| module_state := {| GROQ_API_KEY := EmptyString; routes := [("POST", "/analyze")] |};
     outbound := [] |}.

(** A [.env] file that defines the variable. *)
Definition dotenv_with_key : gmap string string :=
  {[ "GROQ_API_KEY" := "gsk_file" ]}.

Definition req_empty : AnalyzeRequest :=
  {| code := EmptyString; error := None |}.

(** An HTML error page: the body is not JSON. *)
Definition html_page : Response :=
  {| status_code := 502; body := None |}.

(** A reply with everything but the path. *)
Definition usage_only : gmap string pyval :=
  {[ "id" := PStr "chatcmpl-1"; "usage" := PDict {[ "total_tokens" := PInt 12 ]} ]}.

Definition no_choices : Response :=
  {| status_code := 200; body := Some (PDict usage_only) |}.

Definition empty_choices : Response :=
  {| status_code := 200; body := Some (PDict {[ "choices" := PList [] ]}) |}.

Definition string_choices : Response :=
  {| status_code := 200; body := Some (PDict {[ "choices" := PStr "none" ]}) |}.

Definition list_reply : Response :=
  {| status_code := 200; body := Some (PList [PStr "Issue: ..."]) |}.

End Edge.

(** * Properties *)

(** ** Strings *)

Module StrFacts.
Import Str.


Lemma app_nil_l (b : string) : EmptyString +:+ b = b.
Proof. reflexivity. Qed.

Lemma app_cons (x : ascii) (a b : string) :
  String x a +:+ b = String x (a +:+ b).
Proof. reflexivity. Qed.

Lemma app_assoc (a b c : string) : (a +:+ b) +:+ c = a +:+ b +:+ c.
Proof.
  induction a as [|x a IH]; [done |].
  by rewrite !app_cons, IH.
Qed.

Lemma app_length (a b : string) :
  String.length (a +:+ b) = String.length a + String.length b.
Proof.
  induction a as [|x a IH]; [done |].
  rewrite app_cons. simpl. by rewrite IH.
Qed.

Lemma prefix_app (s t : string) :
  String.prefix s t = true ↔ ∃ post, t = s +:+ post.
Proof.
  revert t. induction s as [|x s IH]; intros t.
  - destruct t; (split; [intros _; by eexists | done]).
  - destruct t as [|y t]; simpl.
    { split; [done | intros [post H]; by rewrite app_cons in H]. }
    destruct (ascii_dec x y) as [->|Hne].
    + rewrite IH. split; intros [post H]; exists post.
      * by rewrite app_cons, H.
      * rewrite app_cons in H. by injection H.
    + split; [done |]. intros [post H]. rewrite app_cons in H.
      by injection H as ? _.
Qed.

Lemma contains_unfold (s t : string) :
  contains s t =
  String.prefix s t ||
  match t with EmptyString => false | String _ t' => contains s t' end.
Proof.
  destruct t as [|y t]; [by destruct s |].
  change (contains s (String y t))
    with (if String.prefix s (String y t) then true else contains s t).
  by destruct (String.prefix s (String y t)).
Qed.

Lemma contains_occurs_in (s t : string) :
  contains s t = true ↔ occurs_in s t.
Proof.
  induction t as [|y t IH]; rewrite contains_unfold, orb_true_iff, prefix_app.
  - split.
    + intros [[post H]|]; [by exists EmptyString, post | done].
    + intros [pre [post H]]. left.
      destruct pre; [by exists post | by rewrite app_cons in H].
  - rewrite IH. split.
    + intros [[post H]|[pre [post H]]]; [by exists EmptyString, post |].
      exists (String y pre), post. by rewrite app_cons, H.
    + intros [pre [post H]]. destruct pre as [|z pre].
      * left. by exists post.
      * right. rewrite app_cons in H. injection H as _ H. by exists pre, post.
Qed.

Lemma occurs_in_mid (pre s post : string) : occurs_in s (pre +:+ s +:+ post).
Proof. by exists pre, post. Qed.

Lemma occurs_in_app_l (s pre t : string) : occurs_in s t → occurs_in s (pre +:+ t).
Proof.
  intros [a [b ->]]. exists (pre +:+ a), b. by rewrite app_assoc.
Qed.

End StrFacts.

(** ** Subscription against JSON paths *)

Lemma getitem_key (v : pyval) (k : string) :
  match json_member k v with
  | Some x => getitem v (SKey k) = inr x
  | None => ∃ e, getitem v (SKey k) = inl e ∧ lookup_error e
  end.
Proof.
  destruct v; simpl; try (by eexists).
  destruct (_ !! k); [done | by eexists].
Qed.

Lemma seq_index_0 (n : nat) : seq_index n 0 = if n is O then None else Some 0.
Proof. unfold seq_index. destruct n; repeat case_decide; try lia; done. Qed.

Lemma getitem_first_list (l : list pyval) :
  match l !! 0 with
  | Some x => getitem (PList l) (SIdx 0) = inr x
  | None => getitem (PList l) (SIdx 0) = inl IndexError
  end.
Proof. simpl. rewrite seq_index_0. by destruct l. Qed.

(** Subscripting a [str] by an integer gives a [str] again, or fails. *)
Lemma getitem_first_str (s : string) :
  (∃ c, getitem (PStr s) (SIdx 0) = inr (PStr c)) ∨
  getitem (PStr s) (SIdx 0) = inl IndexError.
Proof.
  simpl. rewrite seq_index_0. destruct s; simpl; [by right | left; by eexists].
Qed.

(** The handler's chain of subscriptions succeeds exactly on the replies
    that have the path, and then yields what is at the path. *)
Lemma unwrap_reply (status : Z) (reply : pyval) :
  match completion_text reply with
  | Some c =>
      unwrap (inr {| status_code := status; body := Some reply |})
      = inr (PDict {[ "analysis" := c ]})
  | None =>
      ∃ e, unwrap (inr {| status_code := status; body := Some reply |}) = inl e
           ∧ lookup_error e
  end.
Proof.
  unfold completion_text, unwrap, response_json; cbn [body].
  pose proof (getitem_key reply "choices") as Hc.
  destruct (json_member "choices" reply) as [choices|]; cbn [mbind option_bind];
    [| destruct Hc as (e & -> & ?); by exists e].
  rewrite Hc. clear Hc.
  destruct choices as [| | | |s|l|d];
    try (cbn; by eexists).
  - destruct (getitem_first_str s) as [[c ->]| ->]; cbn; by eexists.
  - pose proof (getitem_first_list l) as Hf. cbn [json_element].
    destruct (l !! 0) as [first|]; cbn [mbind option_bind];
      [| rewrite Hf; by eexists].
    rewrite Hf. clear Hf.
    pose proof (getitem_key first "message") as Hm.
    destruct (json_member "message" first) as [message|]; cbn [mbind option_bind];
      [| destruct Hm as (e & -> & ?); by exists e].
    rewrite Hm. clear Hm.
    pose proof (getitem_key message "content") as Hk.
    destruct (json_member "content" message) as [content|];
      [by rewrite Hk | destruct Hk as (e & -> & ?); by exists e].
Qed.

(** ** One run of the handler *)

(** A run of [analyze] makes its one call and returns what [unwrap] makes
    of the outcome; the module state is the one it started in. *)
Lemma analyze_run network (req : AnalyzeRequest) (w : World) :
  let r := outbound_request (GROQ_API_KEY (module_state w)) (render_prompt req) in
  analyze network req w =
  (unwrap (network (outbound w) r),
   {| module_state := module_state w; outbound := outbound w ++ [r] |}).
Proof.
  unfold analyze, unwrap, read_GROQ_API_KEY, requests_post, lift.
  unfold mbind, M_bind, mret, M_ret. cbn beta iota.
  destruct (network _ _) as [e|response]; [done |].
  destruct (response_json response) as [e|reply]; [done |].
  destruct (getitem reply _) as [e|choices]; [done |].
  destruct (getitem choices _) as [e|first]; [done |].
  destruct (getitem first _) as [e|message]; [done |].
  by destruct (getitem message _) as [e|content].
Qed.

Lemma analyze_result network (req : AnalyzeRequest) (w : World) :
  (analyze network req w).1 = unwrap (network (outbound w) (call_of w req)).
Proof. by rewrite analyze_run. Qed.

Lemma analyze_state network (req : AnalyzeRequest) (w : World) :
  (analyze network req w).2 =
  {| module_state := module_state w; outbound := outbound w ++ [call_of w req] |}.
Proof. by rewrite analyze_run. Qed.

Lemma completion_text_reply (c : pyval) :
  completion_text (completion_reply c) = Some c.
Proof. reflexivity. Qed.

Lemma last_prompt_call (w : World) (key prompt : string) :
  last_prompt {| module_state := module_state w;
                 outbound := outbound w ++ [outbound_request key prompt] |}
  = Some (PStr prompt).
Proof. unfold last_prompt. cbn [outbound]. by rewrite last_snoc. Qed.

(** A successful reply: whatever stands at the path is handed back. *)
Lemma analyze_success network (req : AnalyzeRequest) (w : World)
    (status : Z) (reply c : pyval) :
  network (outbound w) (call_of w req)
    = inr {| status_code := status; body := Some reply |} →
  completion_text reply = Some c →
  (analyze network req w).1 = inr (PDict {[ "analysis" := c ]}).
Proof.
  intros Hnet Hc. rewrite analyze_result, Hnet.
  pose proof (unwrap_reply status reply) as H. by rewrite Hc in H.
Qed.

(** A reply that is not JSON makes [response.json()] raise. *)
Lemma analyze_not_json network (req : AnalyzeRequest) (w : World)
    (response : Response) :
  network (outbound w) (call_of w req) = inr response →
  body response = None →
  (analyze network req w).1 = inl JSONDecodeError.
Proof.
  intros Hnet Hb. rewrite analyze_result, Hnet.
  unfold unwrap, response_json. by rewrite Hb.
Qed.

(** A JSON reply without the path makes one of the subscriptions raise. *)
Lemma analyze_shape_mismatch network (req : AnalyzeRequest) (w : World)
    (response : Response) (reply : pyval) :
  network (outbound w) (call_of w req) = inr response →
  body response = Some reply →
  completion_text reply = None →
  ∃ e, (analyze network req w).1 = inl e ∧ lookup_error e.
Proof.
  intros Hnet Hb Hc. rewrite analyze_result, Hnet.
  destruct response as [status b]. simpl in Hb. subst b.
  pose proof (unwrap_reply status reply) as H. by rewrite Hc in H.
Qed.

(** An exception of [requests.post] leaves the handler as it is. *)
Lemma analyze_network_failure network (req : AnalyzeRequest) (w : World) (e : exn) :
  network (outbound w) (call_of w req) = inl e →
  (analyze network req w).1 = inl e.
Proof. intros Hnet. by rewrite analyze_result, Hnet. Qed.

(** ** The process *)

Lemma proc_step_inv load_dotenv network environ (p q : proc) :
  proc_inv load_dotenv environ p →
  proc_step load_dotenv network p q →
  proc_inv load_dotenv environ q.
Proof.
  intros Hp Hstep. destruct Hstep as [env m Hm|env e He|w req|w]; simpl in *.
  - subst env. unfold import_module in Hm.
    destruct (os_getenv _ _) as [k|]; [| done]. by injection Hm as <-.
  - subst env. unfold import_module in He.
    destruct (os_getenv _ _) as [k|]; [done |]. by injection He as <-.
  - by rewrite analyze_state.
  - done.
Qed.

Lemma proc_reachable_inv load_dotenv network environ (p : proc) :
  rtc (proc_step load_dotenv network) (Booting environ) p →
  proc_inv load_dotenv environ p.
Proof.
  revert p. apply rtc_ind_r; [done |].
  intros p q _ Hstep Hp. by eapply proc_step_inv.
Qed.

Lemma getenv_dotenv_merge_None (file environ : gmap string string) (k : string) :
  os_getenv (dotenv_merge file environ) k = None
  ↔ os_getenv environ k = None ∧ file !! k = None.
Proof. unfold os_getenv, dotenv_merge. apply lookup_union_None. Qed.

(** The handler could rebind the credential; [analyze] is not such a
    computation. *)
Lemma write_GROQ_API_KEY_changes (w : World) (k : string) :
  k ≠ GROQ_API_KEY (module_state w) →
  module_state (write_GROQ_API_KEY k w).2 ≠ module_state w.
Proof. intros Hne Heq. apply Hne. by rewrite <- Heq. Qed.

(** * The claims *)

(** ** Prompt construction *)

(** C1: for every accepted request the rendered prompt contains the
    student's code verbatim, or the placeholder [[EMPTY CODE]] when the
    code is the empty string, and contains the error text verbatim, or the
    placeholder [No error message] when the error is null. *)
Theorem prompt_contains_code_and_error (req : AnalyzeRequest) :
  Str.occurs_in
    (if decide (code req = EmptyString) then "[EMPTY CODE]" else code req)
    (render_prompt req)
  ∧ Str.occurs_in
      (match error req with
       | None => "No error message"
       | Some e => e
       end)
      (render_prompt req).
Proof.
  unfold render_prompt. split.
  - apply StrFacts.occurs_in_mid.
  - rewrite <- !(StrFacts.app_assoc prompt_head), <- !(StrFacts.app_assoc (prompt_head +:+ _)).
    destruct (error req) as [e|]; [| apply StrFacts.occurs_in_mid].
    cbn [opt_str_or]. unfold str_or at 2.
    destruct (decide (e = EmptyString)) as [->|_]; [| apply StrFacts.occurs_in_mid].
    by eexists EmptyString, _.
Qed.

(** The sample request: its code and its error text are found in the
    prompt by Python's [in]. *)
Example sample_prompt_contains :
  Str.contains "print(x)" (render_prompt Sample.req) = true
  ∧ Str.contains "NameError: name 'x' is not defined" (render_prompt Sample.req) = true
  ∧ Str.contains "[EMPTY CODE]" (render_prompt Sample.req) = false.
Proof. by vm_compute. Qed.

(** Empty code and a null error: both placeholders. *)
Example empty_request_prompt :
  render_prompt {| code := EmptyString; error := None |}
  = prompt_head +:+ "[EMPTY CODE]" +:+ prompt_mid +:+ "No error message" +:+ prompt_tail.
Proof. reflexivity. Qed.

(** C10: when the error is present but is the empty string, the rendered
    prompt is the one of a null error: it carries the placeholder
    [No error message] between the error heading and the questions, not an
    empty insertion. *)
Theorem empty_error_renders_placeholder (c : string) :
  render_prompt {| code := c; error := Some EmptyString |}
    = render_prompt {| code := c; error := None |}
  ∧ render_prompt {| code := c; error := Some EmptyString |}
    = prompt_head +:+ str_or c "[EMPTY CODE]" +:+ prompt_mid
        +:+ "No error message" +:+ prompt_tail
  ∧ render_prompt {| code := c; error := Some EmptyString |}
    ≠ prompt_head +:+ str_or c "[EMPTY CODE]" +:+ prompt_mid
        +:+ EmptyString +:+ prompt_tail.
Proof.
  split_and!; [done | done |].
  unfold render_prompt; cbn [code error opt_str_or].
  intros H. do 3 apply (inj (String.append _)) in H. discriminate H.
Qed.

(** C9: prompt construction is deterministic: two invocations of [analyze]
    on requests with equal code and equal error put the same prompt in
    their call, whatever the credential, the calls made before and the
    behaviour of the remote end are. *)
Theorem prompt_deterministic network1 network2
    (req1 req2 : AnalyzeRequest) (w1 w2 : World) :
  code req1 = code req2 →
  error req1 = error req2 →
  last_prompt (analyze network1 req1 w1).2 = Some (PStr (render_prompt req1))
  ∧ last_prompt (analyze network1 req1 w1).2
    = last_prompt (analyze network2 req2 w2).2.
Proof.
  intros Hc He. rewrite !analyze_state. unfold call_of.
  rewrite !last_prompt_call. split; [done |].
  unfold render_prompt. by rewrite Hc, He.
Qed.

Lemma prompt_deterministic_witness :
  last_prompt (analyze Sample.net_down Sample.req Sample.world_one).2
    = Some (PStr (render_prompt Sample.req))
  ∧ last_prompt (analyze Sample.net_down Sample.req Sample.world_one).2
    = last_prompt (analyze Sample.net_ok Sample.req Sample.world_two).2.
Proof.
  by apply (prompt_deterministic Sample.net_down Sample.net_ok
              Sample.req Sample.req Sample.world_one Sample.world_two).
Defined.

(** ** The reply *)

(** C2: for every upstream response of the shape
    [{"choices":[{"message":{"content": c}}]}] with [c] a string, [analyze]
    returns the object [{"analysis": c}], [c] unchanged. *)
Theorem analyze_returns_completion network (req : AnalyzeRequest) (w : World)
    (status : Z) (c : string) :
  network (outbound w) (call_of w req)
    = inr {| status_code := status;
             body := Some (PDict {[ "choices" :=
                      PList [PDict {[ "message" :=
                        PDict {[ "content" := PStr c ]} ]}] ]}) |} →
  (analyze network req w).1 = inr (PDict {[ "analysis" := PStr c ]}).
Proof.
  intros Hnet. eapply analyze_success; [exact Hnet |].
  apply (completion_text_reply (PStr c)).
Qed.

Lemma analyze_returns_completion_witness :
  (analyze Sample.net_ok Sample.req Sample.world_one).1
  = inr (PDict {[ "analysis" := PStr "Issue: ..." ]}).
Proof.
  apply (analyze_returns_completion Sample.net_ok Sample.req Sample.world_one
           200 "Issue: ...").
  reflexivity.
Defined.

(** C3: for every upstream response whose JSON body does not have the path
    [choices[0].message.content], [analyze] fails with an error, a
    [KeyError], [IndexError] or [TypeError] of the subscription; it returns
    no success result, so none with an empty or null analysis. *)
Theorem analyze_fails_without_completion network (req : AnalyzeRequest)
    (w : World) (response : Response) (reply : pyval) :
  network (outbound w) (call_of w req) = inr response →
  body response = Some reply →
  completion_text reply = None →
  (∃ e, (analyze network req w).1 = inl e ∧ lookup_error e)
  ∧ ∀ v, (analyze network req w).1 ≠ inr v.
Proof.
  intros Hnet Hb Hc.
  destruct (analyze_shape_mismatch network req w response reply)
    as (e & He & Hl); [done.. |].
  split; [by exists e |]. intros v. by rewrite He.
Qed.

Lemma analyze_fails_without_completion_witness :
  (∃ e, (analyze Sample.net_unauthorized Sample.req Sample.world_one).1 = inl e
        ∧ lookup_error e)
  ∧ ∀ v, (analyze Sample.net_unauthorized Sample.req Sample.world_one).1 ≠ inr v.
Proof.
  apply (analyze_fails_without_completion Sample.net_unauthorized Sample.req
           Sample.world_one {| status_code := 401; body := Some Sample.error_document |}
           Sample.error_document); reflexivity.
Defined.

(** An empty [choices] array: the subscription [[0]] raises [IndexError]. *)
Example analyze_empty_choices :
  (analyze (λ _ _, inr {| status_code := 200;
                          body := Some (PDict {[ "choices" := PList [] ]}) |})
     Sample.req Sample.world_one).1
  = inl IndexError.
Proof. reflexivity. Qed.

(** A missing [choices] field: the first subscription raises [KeyError]. *)
Example analyze_missing_choices :
  (analyze Sample.net_unauthorized Sample.req Sample.world_one).1
  = inl (KeyError (SKey "choices")).
Proof. reflexivity. Qed.

(** A path that is there with a null at its end is handed back as it is. *)
Example analyze_null_content :
  (analyze (λ _ _, inr {| status_code := 200;
                          body := Some (completion_reply PNone) |})
     Sample.req Sample.world_one).1
  = inr (PDict {[ "analysis" := PNone ]}).
Proof. reflexivity. Qed.

(** ** Failures of the outbound call *)

(** C4, as stated, fails: the status of the response is never looked at,
    so a response with a non-2xx status whose body has the shape of a
    completion is returned as a success. *)
Lemma non_2xx_completion_is_returned :
  ¬ (∀ network (req : AnalyzeRequest) (w : World),
       (∃ e, network (outbound w) (call_of w req) = inl e)
       ∨ (∃ response, network (outbound w) (call_of w req) = inr response
                      ∧ ¬ is_2xx response) →
       ∃ e, (analyze network req w).1 = inl e).
Proof.
  intros H.
  destruct (H Sample.net_500_completion Sample.req Sample.world_one) as [e He].
  - right. eexists. split; [reflexivity |]. unfold is_2xx. simpl. lia.
  - discriminate He.
Qed.

(** C4, amended: when the outbound call suffers a network failure, or
    returns a non-2xx status with a body that is not JSON or lacks the path
    [choices[0].message.content], [analyze] fails: the exception reaches
    the caller (the one of [requests.post] itself for a network failure),
    exactly one call has been made, so nothing was retried, and no result
    is returned. *)
Theorem analyze_fails_on_upstream_failure network (req : AnalyzeRequest) (w : World) :
  (∃ e, network (outbound w) (call_of w req) = inl e)
  ∨ (∃ response, network (outbound w) (call_of w req) = inr response
                 ∧ ¬ is_2xx response
                 ∧ (body response = None
                    ∨ ∃ reply, body response = Some reply
                               ∧ completion_text reply = None)) →
  (∃ e, (analyze network req w).1 = inl e
        ∧ ∀ e', network (outbound w) (call_of w req) = inl e' → e = e')
  ∧ (∀ v, (analyze network req w).1 ≠ inr v)
  ∧ outbound (analyze network req w).2 = outbound w ++ [call_of w req].
Proof.
  intros H.
  assert (∃ e, (analyze network req w).1 = inl e
               ∧ ∀ e', network (outbound w) (call_of w req) = inl e' → e = e')
    as [e [He Hsame]].
  { destruct H as [[e Hnet]|(response & Hnet & _ & [Hb|(reply & Hb & Hc)])].
    - exists e. split; [by apply analyze_network_failure | congruence].
    - exists JSONDecodeError. split; [by eapply analyze_not_json | congruence].
    - destruct (analyze_shape_mismatch network req w response reply)
        as (e & He & _); [done.. |].
      exists e. split; [done | congruence]. }
  split_and!.
  - by exists e.
  - intros v. by rewrite He.
  - by rewrite analyze_state.
Qed.

Lemma analyze_fails_on_upstream_failure_witness :
  (∃ e, (analyze Sample.net_down Sample.req Sample.world_two).1 = inl e
        ∧ ∀ e', Sample.net_down (outbound Sample.world_two)
                  (call_of Sample.world_two Sample.req) = inl e' → e = e')
  ∧ (∀ v, (analyze Sample.net_down Sample.req Sample.world_two).1 ≠ inr v)
  ∧ outbound (analyze Sample.net_down Sample.req Sample.world_two).2
    = outbound Sample.world_two ++ [call_of Sample.world_two Sample.req].
Proof.
  apply (analyze_fails_on_upstream_failure Sample.net_down Sample.req Sample.world_two).
  left. by exists (RequestException "connection refused").
Defined.

(** A 401 with an error document fails on the missing [choices]. *)
Example analyze_unauthorized :
  (analyze Sample.net_unauthorized Sample.req Sample.world_one).1
  = inl (KeyError (SKey "choices")).
Proof. reflexivity. Qed.

(** ** Effects of a request *)

(** C8: every invocation of [analyze] makes exactly one outbound call and
    changes nothing else: the module state, the credential in it, is after
    the request what it was before, whether the request succeeds or fails. *)
Theorem analyze_one_call_no_mutation network (req : AnalyzeRequest) (w : World) :
  module_state (analyze network req w).2 = module_state w
  ∧ GROQ_API_KEY (module_state (analyze network req w).2)
    = GROQ_API_KEY (module_state w)
  ∧ outbound (analyze network req w).2 = outbound w ++ [call_of w req]
  ∧ length (outbound (analyze network req w).2) = S (length (outbound w)).
Proof.
  rewrite analyze_state; cbn [module_state outbound].
  split_and!; try done. rewrite length_app. simpl. lia.
Qed.

(** C7: in every invocation the body of the outbound request is exactly
    the fixed model identifier and a message list of one message, whose
    content is the rendered prompt, and the request carries the header
    [Authorization: Bearer k] for the credential [k] read at start-up. *)
Theorem outbound_request_contents load_dotenv network
    (environ : gmap string string) (w : World) (req : AnalyzeRequest) :
  rtc (proc_step load_dotenv network) (Booting environ) (Serving w) →
  ∃ (k : string) (r : HttpRequest),
    os_getenv (load_dotenv environ) "GROQ_API_KEY" = Some k
    ∧ outbound (analyze network req w).2 = outbound w ++ [r]
    ∧ url r = "https://api.groq.com/openai/v1/chat/completions"
    ∧ headers r !! "Authorization" = Some ("Bearer " +:+ k)
    ∧ json r = PDict {[ "model" := PStr "llama-3.1-8b-instant";
                        "messages" :=
                          PList [PDict {[ "role" := PStr "user";
                                          "content" := PStr (render_prompt req) ]}] ]}.
Proof.
  intros Hreach. apply proc_reachable_inv in Hreach as [Hkey _].
  exists (GROQ_API_KEY (module_state w)), (call_of w req).
  rewrite analyze_state. by split_and!.
Qed.

Lemma outbound_request_contents_witness :
  ∃ (k : string) (r : HttpRequest),
    os_getenv (Sample.no_dotenv Sample.environ_with_key) "GROQ_API_KEY" = Some k
    ∧ outbound (analyze Sample.net_ok Sample.req Sample.world_one).2
      = outbound Sample.world_one ++ [r]
    ∧ url r = "https://api.groq.com/openai/v1/chat/completions"
    ∧ headers r !! "Authorization" = Some ("Bearer " +:+ k)
    ∧ json r = PDict {[ "model" := PStr "llama-3.1-8b-instant";
                        "messages" :=
                          PList [PDict {[ "role" := PStr "user";
                                          "content" := PStr (render_prompt Sample.req) ]}] ]}.
Proof.
  apply (outbound_request_contents Sample.no_dotenv Sample.net_ok
           Sample.environ_with_key Sample.world_one Sample.req).
  apply rtc_once.
  apply (step_ready Sample.no_dotenv Sample.net_ok Sample.environ_with_key
           (module_state Sample.world_one)).
  reflexivity.
Defined.

(** ** Start-up *)

(** C6, as stated, fails: [load_dotenv()] runs before the variable is
    read, so a process started without [GROQ_API_KEY] in its environment
    takes it from the [.env] file, the import succeeds and the process
    serves. *)
Lemma dotenv_file_supplies_credential :
  ¬ (∀ (file environ : gmap string string) network,
       os_getenv environ "GROQ_API_KEY" = None →
       import_module (dotenv_merge file) environ
         = inl (RuntimeError "GROQ_API_KEY is not set")
       ∧ ∀ p, rtc (proc_step (dotenv_merge file) network) (Booting environ) p →
              ∀ w, p ≠ Serving w).
Proof.
  intros H.
  destruct (H Edge.dotenv_with_key Sample.environ_without_key Sample.net_ok)
    as [Himport _]; [reflexivity |].
  discriminate Himport.
Qed.

(** The start of that process: the credential of the file, and a state in
    which requests are served. *)
Example dotenv_file_start :
  os_getenv Sample.environ_without_key "GROQ_API_KEY" = None
  ∧ import_module (dotenv_merge Edge.dotenv_with_key) Sample.environ_without_key
    = inr {| GROQ_API_KEY := "gsk_file"; routes := [("POST", "/analyze")] |}.
Proof. split; reflexivity. Qed.

(** C6, amended: if [GROQ_API_KEY] is absent from the environment as it is
    once [load_dotenv()] has run, that is when [os.getenv] returns [None]
    in the module body, the import aborts with the [RuntimeError] of the
    module body, and no state in which the process serves requests is ever
    reached. *)
Theorem startup_aborts_without_credential load_dotenv network
    (environ : gmap string string) :
  os_getenv (load_dotenv environ) "GROQ_API_KEY" = None →
  import_module load_dotenv environ = inl (RuntimeError "GROQ_API_KEY is not set")
  ∧ ∀ p, rtc (proc_step load_dotenv network) (Booting environ) p →
         ∀ w, p ≠ Serving w.
Proof.
  intros Hkey. split.
  - unfold import_module. by rewrite Hkey.
  - intros p Hreach w ->. apply proc_reachable_inv in Hreach as [Hsome _].
    congruence.
Qed.

Lemma startup_aborts_without_credential_witness :
  import_module Sample.no_dotenv Sample.environ_without_key
    = inl (RuntimeError "GROQ_API_KEY is not set")
  ∧ ∀ p, rtc (proc_step Sample.no_dotenv Sample.net_ok)
             (Booting Sample.environ_without_key) p →
         ∀ w, p ≠ Serving w.
Proof.
  apply (startup_aborts_without_credential Sample.no_dotenv Sample.net_ok
           Sample.environ_without_key).
  reflexivity.
Defined.

(** * Further properties of the code *)

(** ** Start-up and the life of the process *)

(** The log of a process started in [environ]: every call in it was made
    with the credential of the module state. *)
Lemma proc_calls_inv load_dotenv network environ (w : World) :
  rtc (proc_step load_dotenv network) (Booting environ) (Serving w) →
  Forall (groq_call (GROQ_API_KEY (module_state w))) (outbound w).
Proof.
  intros Hreach.
  cut (∀ p, rtc (proc_step load_dotenv network) (Booting environ) p →
            ∀ w', p = Serving w' →
                  Forall (groq_call (GROQ_API_KEY (module_state w'))) (outbound w')).
  { intros H. by eapply H. }
  clear w Hreach. apply (rtc_ind_r (λ p, ∀ w', p = Serving w' → _)); [done |].
  intros p q _ Hstep IH w' ->. inversion Hstep as [env m Hm| |w0 req|w0]; subst.
  - constructor.
  - rewrite analyze_state; cbn [module_state outbound].
    apply Forall_app. split; [by apply IH |].
    constructor; [| constructor].
    unfold groq_call, call_of, outbound_request; cbn [url headers json].
    split_and!; [done | done | by exists req].
  - by apply IH.
Qed.

(** X1: the process reaches a state in which it serves requests exactly
    when [os.getenv] finds the variable, whatever its value. *)
Theorem serving_iff_credential load_dotenv network (environ : gmap string string) :
  (∃ w, rtc (proc_step load_dotenv network) (Booting environ) (Serving w))
  ↔ is_Some (os_getenv (load_dotenv environ) "GROQ_API_KEY").
Proof.
  split.
  - intros [w Hreach]. apply proc_reachable_inv in Hreach as [Hkey _]. by eexists.
  - intros [k Hk]. eexists. apply rtc_once, step_ready.
    unfold import_module. by rewrite Hk.
Qed.

(** X2: the start-up test is [is None], so a variable set to the empty
    string passes it: the import succeeds with an empty credential and
    every request is sent with the header [Authorization: Bearer ] and
    nothing after it. *)
Theorem empty_credential_is_accepted load_dotenv network
    (environ : gmap string string) :
  os_getenv (load_dotenv environ) "GROQ_API_KEY" = Some EmptyString →
  import_module load_dotenv environ
    = inr {| GROQ_API_KEY := EmptyString; routes := [("POST", "/analyze")] |}
  ∧ ∀ w req, rtc (proc_step load_dotenv network) (Booting environ) (Serving w) →
             headers (call_of w req) !! "Authorization" = Some "Bearer ".
Proof.
  intros Hk. split.
  - unfold import_module. by rewrite Hk.
  - intros w req Hreach. apply proc_reachable_inv in Hreach as [Hkey _].
    rewrite Hk in Hkey. injection Hkey as Hkey.
    unfold call_of. by rewrite <- Hkey.
Qed.

Lemma empty_credential_is_accepted_witness :
  import_module Sample.no_dotenv Edge.environ_empty_key
    = inr {| GROQ_API_KEY := EmptyString; routes := [("POST", "/analyze")] |}
  ∧ ∀ w req, rtc (proc_step Sample.no_dotenv Sample.net_ok)
                 (Booting Edge.environ_empty_key) (Serving w) →
             headers (call_of w req) !! "Authorization" = Some "Bearer ".
Proof.
  apply (empty_credential_is_accepted Sample.no_dotenv Sample.net_ok
           Edge.environ_empty_key).
  reflexivity.
Defined.

(** X3: for the whole life of a process, through any number of requests,
    succeeded, failed or turned away before the handler, the credential in
    the module state is the value [os.getenv] returned at start-up. *)
Theorem credential_fixed_for_life load_dotenv network
    (environ : gmap string string) (w : World) :
  rtc (proc_step load_dotenv network) (Booting environ) (Serving w) →
  os_getenv (load_dotenv environ) "GROQ_API_KEY"
    = Some (GROQ_API_KEY (module_state w)).
Proof. intros Hreach. by apply proc_reachable_inv in Hreach as [? _]. Qed.

Lemma credential_fixed_for_life_witness :
  os_getenv (Sample.no_dotenv Sample.environ_with_key) "GROQ_API_KEY"
    = Some (GROQ_API_KEY (module_state
              (analyze Sample.net_down Sample.req Sample.world_one).2)).
Proof.
  apply (credential_fixed_for_life Sample.no_dotenv Sample.net_down
           Sample.environ_with_key).
  eapply rtc_l.
  - apply (step_ready Sample.no_dotenv Sample.net_down Sample.environ_with_key
             (module_state Sample.world_one)).
    reflexivity.
  - eapply rtc_l; [apply step_turned_away |].
    apply rtc_once.
    apply (step_request Sample.no_dotenv Sample.net_down Sample.world_one Sample.req).
Defined.

(** X4: every outbound call a process has ever made went to the one fixed
    address, with the two headers built from the start-up credential, the
    fixed model and a single user message that is the prompt of a request;
    no call of another shape is ever made. *)
Theorem every_call_is_a_groq_call load_dotenv network
    (environ : gmap string string) (w : World) :
  rtc (proc_step load_dotenv network) (Booting environ) (Serving w) →
  ∃ k,
    os_getenv (load_dotenv environ) "GROQ_API_KEY" = Some k
    ∧ Forall (groq_call k) (outbound w).
Proof.
  intros Hreach. exists (GROQ_API_KEY (module_state w)). split.
  - by apply proc_reachable_inv in Hreach as [? _].
  - by eapply proc_calls_inv.
Qed.

Lemma every_call_is_a_groq_call_witness :
  ∃ k,
    os_getenv (Sample.no_dotenv Sample.environ_with_key) "GROQ_API_KEY" = Some k
    ∧ Forall (groq_call k)
        (outbound (analyze Sample.net_down Sample.req Sample.world_one).2).
Proof.
  apply (every_call_is_a_groq_call Sample.no_dotenv Sample.net_down
           Sample.environ_with_key).
  eapply rtc_l.
  - apply (step_ready Sample.no_dotenv Sample.net_down Sample.environ_with_key
             (module_state Sample.world_one)).
    reflexivity.
  - apply rtc_once.
    apply (step_request Sample.no_dotenv Sample.net_down Sample.world_one Sample.req).
Defined.

(** One step of a serving process: it stays serving with its module
    state, and its log is as before or longer by the one call of a run of
    [analyze]. *)
Lemma serving_step load_dotenv network (w : World) (p : proc) :
  proc_step load_dotenv network (Serving w) p →
  ∃ w', p = Serving w'
        ∧ module_state w' = module_state w
        ∧ (outbound w' = outbound w
           ∨ ∃ req, outbound w' = outbound w ++ [call_of w req]).
Proof.
  intros Hstep. inversion Hstep as [| |w0 req|w0]; subst.
  - eexists. split; [done |]. rewrite analyze_state; cbn [module_state outbound].
    split; [done |]. right. by exists req.
  - exists w. split_and!; [done | done | by left].
Qed.

(** X5: a serving process that handles [n] requests, of which some may be
    turned away before the handler, stays serving and keeps its module
    state; its log is only added to at its end, by at most [n] calls, at
    most one per request, each the call of [analyze] for some request with
    the credential of the process. *)
Theorem at_most_one_call_per_request load_dotenv network
    (n : nat) (w : World) (p : proc) :
  nsteps (proc_step load_dotenv network) n (Serving w) p →
  ∃ (w' : World) (new : list HttpRequest),
    p = Serving w'
    ∧ module_state w' = module_state w
    ∧ outbound w' = outbound w ++ new
    ∧ length new ≤ n
    ∧ Forall (λ r, ∃ req, r = call_of w req) new.
Proof.
  revert w. induction n as [|n IH]; intros w Hsteps.
  - inversion Hsteps; subst. exists w, [].
    split_and!; [done | done | by rewrite app_nil_r | done | constructor].
  - inversion Hsteps as [|? ? q ? Hstep Hrest]; subst.
    apply serving_step in Hstep as (w1 & -> & Hm1 & Hlog1).
    destruct (IH _ Hrest) as (w' & new & -> & Hm & Hlog & Hlen & Hall).
    assert (Forall (λ r, ∃ req, r = call_of w req) new) as Hall'.
    { eapply Forall_impl; [exact Hall |]. intros r [req ->]. exists req.
      unfold call_of. by rewrite Hm1. }
    destruct Hlog1 as [Hsame|[req Hmore]].
    + exists w', new. rewrite Hlog, Hsame.
      split_and!; [done | congruence | done | lia | done].
    + exists w', (call_of w req :: new). rewrite Hlog, Hmore, <- app_assoc.
      split_and!; [done | congruence | done | simpl; lia |].
      constructor; [by exists req | done].
Qed.

Lemma at_most_one_call_per_request_witness :
  ∃ (w' : World) (new : list HttpRequest),
    Serving (analyze Sample.net_down Edge.req_empty
               (analyze Sample.net_down Sample.req Sample.world_two).2).2
    = Serving w'
    ∧ module_state w' = module_state Sample.world_two
    ∧ outbound w' = outbound Sample.world_two ++ new
    ∧ length new ≤ 3
    ∧ Forall (λ r, ∃ req, r = call_of Sample.world_two req) new.
Proof.
  apply (at_most_one_call_per_request Sample.no_dotenv Sample.net_down
           3 Sample.world_two).
  eapply nsteps_l; [apply (step_request _ _ _ Sample.req) |].
  eapply nsteps_l; [apply step_turned_away |].
  eapply nsteps_l; [apply (step_request _ _ _ Edge.req_empty) |].
  apply nsteps_O.
Defined.

(** ** What the handler makes of a reply *)

(** The outcome of a run for a JSON reply that is an object: only its
    member [choices] is looked at. *)
Lemma analyze_object_reply network (req : AnalyzeRequest) (w : World)
    (status : Z) (d : gmap string pyval) :
  network (outbound w) (call_of w req)
    = inr {| status_code := status; body := Some (PDict d) |} →
  (analyze network req w).1 =
  match d !! "choices" with
  | None => inl (KeyError (SKey "choices"))
  | Some choices =>
      match getitem choices (SIdx 0) with
      | inl e => inl e
      | inr first =>
          match getitem first (SKey "message") with
          | inl e => inl e
          | inr message =>
              match getitem message (SKey "content") with
              | inl e => inl e
              | inr content => inr (PDict {[ "analysis" := content ]})
              end
          end
      end
  end.
Proof.
  intros Hnet. rewrite analyze_result, Hnet.
  unfold unwrap, response_json; cbn [body getitem].
  by destruct (d !! "choices").
Qed.

Lemma getitem_head (x : pyval) (l : list pyval) :
  getitem (PList (x :: l)) (SIdx 0) = inr x.
Proof. apply (getitem_first_list (x :: l)). Qed.

(** X6: [analyze] returns a result exactly when the call was answered by a
    response whose JSON body has the path [choices[0].message.content],
    and the result is then the object with the single member [analysis]
    holding the value at that path, of whatever JSON type it is. *)
Theorem analyze_succeeds_iff network (req : AnalyzeRequest) (w : World) (v : pyval) :
  (analyze network req w).1 = inr v
  ↔ ∃ (status : Z) (reply c : pyval),
      network (outbound w) (call_of w req)
        = inr {| status_code := status; body := Some reply |}
      ∧ completion_text reply = Some c
      ∧ v = PDict {[ "analysis" := c ]}.
Proof.
  split.
  - rewrite analyze_result.
    destruct (network _ _) as [e|[status [reply|]]] eqn:Hnet; [done | | done].
    pose proof (unwrap_reply status reply) as H.
    destruct (completion_text reply) as [c|] eqn:Hc.
    + rewrite H. intros [= <-]. by exists status, reply, c.
    + destruct H as (e & -> & _). done.
  - intros (status & reply & c & Hnet & Hc & ->). by eapply analyze_success.
Qed.

(** X7: of a reply that is an object the handler reads the member
    [choices] and nothing else: the status of the response and any other
    member make no difference to what the run returns or raises. *)
Theorem other_members_are_ignored network1 network2 (req : AnalyzeRequest)
    (w : World) (status1 status2 : Z) (d : gmap string pyval)
    (k : string) (x : pyval) :
  k ≠ "choices" →
  network1 (outbound w) (call_of w req)
    = inr {| status_code := status1; body := Some (PDict d) |} →
  network2 (outbound w) (call_of w req)
    = inr {| status_code := status2; body := Some (PDict (<[k := x]> d)) |} →
  (analyze network1 req w).1 = (analyze network2 req w).1.
Proof.
  intros Hk Hnet1 Hnet2.
  rewrite (analyze_object_reply _ _ _ _ _ Hnet1), (analyze_object_reply _ _ _ _ _ Hnet2).
  by rewrite lookup_insert_ne.
Qed.

Lemma other_members_are_ignored_witness :
  (analyze (always (inr Edge.no_choices)) Sample.req Sample.world_one).1
  = (analyze (always (inr {| status_code := 404;
                             body := Some (PDict (<[ "object" := PStr "chat.completion" ]>
                                                    Edge.usage_only)) |}))
       Sample.req Sample.world_one).1.
Proof.
  apply (other_members_are_ignored
           (always (inr Edge.no_choices))
           (always (inr {| status_code := 404;
                           body := Some (PDict (<[ "object" := PStr "chat.completion" ]>
                                                  Edge.usage_only)) |}))
           Sample.req Sample.world_one 200 404 Edge.usage_only
           "object" (PStr "chat.completion")).
  - discriminate.
  - reflexivity.
  - reflexivity.
Defined.

(** X8: when a member on the path is missing from its object, the
    [KeyError] that leaves the handler names that member: [choices] for
    the reply, [message] for the first choice, [content] for the message. *)
Theorem missing_member_is_named network (req : AnalyzeRequest) (w : World)
    (status : Z) (d : gmap string pyval) :
  network (outbound w) (call_of w req)
    = inr {| status_code := status; body := Some (PDict d) |} →
  (d !! "choices" = None →
   (analyze network req w).1 = inl (KeyError (SKey "choices")))
  ∧ (∀ (first : gmap string pyval) (rest : list pyval),
       d !! "choices" = Some (PList (PDict first :: rest)) →
       first !! "message" = None →
       (analyze network req w).1 = inl (KeyError (SKey "message")))
  ∧ (∀ (first message : gmap string pyval) (rest : list pyval),
       d !! "choices" = Some (PList (PDict first :: rest)) →
       first !! "message" = Some (PDict message) →
       message !! "content" = None →
       (analyze network req w).1 = inl (KeyError (SKey "content"))).
Proof.
  intros Hnet. rewrite (analyze_object_reply _ _ _ _ _ Hnet). split_and!.
  - by intros ->.
  - intros first rest -> Hm. rewrite getitem_head. cbn [getitem]. by rewrite Hm.
  - intros first message rest -> Hm Hc. rewrite getitem_head. cbn [getitem].
    rewrite Hm. cbn [getitem]. by rewrite Hc.
Qed.

Lemma missing_member_is_named_witness :
  (Edge.usage_only !! "choices" = None →
   (analyze (always (inr Edge.no_choices)) Sample.req Sample.world_one).1
   = inl (KeyError (SKey "choices")))
  ∧ (∀ (first : gmap string pyval) (rest : list pyval),
       Edge.usage_only !! "choices" = Some (PList (PDict first :: rest)) →
       first !! "message" = None →
       (analyze (always (inr Edge.no_choices)) Sample.req Sample.world_one).1
       = inl (KeyError (SKey "message")))
  ∧ (∀ (first message : gmap string pyval) (rest : list pyval),
       Edge.usage_only !! "choices" = Some (PList (PDict first :: rest)) →
       first !! "message" = Some (PDict message) →
       message !! "content" = None →
       (analyze (always (inr Edge.no_choices)) Sample.req Sample.world_one).1
       = inl (KeyError (SKey "content"))).
Proof.
  apply (missing_member_is_named (always (inr Edge.no_choices)) Sample.req
           Sample.world_one 200 Edge.usage_only).
  reflexivity.
Defined.

(** X9: an empty [choices] array makes the subscription [[0]] raise
    [IndexError], whatever else the reply holds. *)
Theorem empty_choices_raise_IndexError network (req : AnalyzeRequest) (w : World)
    (status : Z) (d : gmap string pyval) :
  network (outbound w) (call_of w req)
    = inr {| status_code := status; body := Some (PDict d) |} →
  d !! "choices" = Some (PList []) →
  (analyze network req w).1 = inl IndexError.
Proof.
  intros Hnet Hc. by rewrite (analyze_object_reply _ _ _ _ _ Hnet), Hc.
Qed.

Lemma empty_choices_raise_IndexError_witness :
  (analyze (always (inr Edge.empty_choices)) Sample.req Sample.world_one).1
  = inl IndexError.
Proof.
  apply (empty_choices_raise_IndexError (always (inr Edge.empty_choices))
           Sample.req Sample.world_one 200 {[ "choices" := PList [] ]});
    reflexivity.
Defined.

(** X10: when the body of the response is not JSON, [response.json()]
    raises and the handler fails with [JSONDecodeError], whatever the
    status is; the call has been made and is the only one. *)
Theorem non_json_body_raises network (req : AnalyzeRequest) (w : World)
    (response : Response) :
  network (outbound w) (call_of w req) = inr response →
  body response = None →
  analyze network req w
  = (inl JSONDecodeError,
     {| module_state := module_state w;
        outbound := outbound w ++ [call_of w req] |}).
Proof.
  intros Hnet Hb. rewrite analyze_run. fold (call_of w req). rewrite Hnet.
  unfold unwrap, response_json. by rewrite Hb.
Qed.

Lemma non_json_body_raises_witness :
  analyze (always (inr Edge.html_page)) Sample.req Sample.world_two
  = (inl JSONDecodeError,
     {| module_state := module_state Sample.world_two;
        outbound := outbound Sample.world_two
                      ++ [call_of Sample.world_two Sample.req] |}).
Proof.
  apply (non_json_body_raises (always (inr Edge.html_page)) Sample.req
           Sample.world_two Edge.html_page); reflexivity.
Defined.

(** X11: a JSON reply that is not an object, be it an array, a string, a
    number, a boolean or null, cannot be subscripted by [choices]: the
    handler fails with [TypeError]. *)
Theorem non_object_reply_raises_TypeError network (req : AnalyzeRequest)
    (w : World) (status : Z) (reply : pyval) :
  network (outbound w) (call_of w req)
    = inr {| status_code := status; body := Some reply |} →
  (∀ d, reply ≠ PDict d) →
  (analyze network req w).1 = inl TypeError.
Proof.
  intros Hnet Hd. rewrite analyze_result, Hnet.
  unfold unwrap, response_json; cbn [body].
  destruct reply; try done. by destruct (Hd d).
Qed.

Lemma non_object_reply_raises_TypeError_witness :
  (analyze (always (inr Edge.list_reply)) Sample.req Sample.world_one).1
  = inl TypeError.
Proof.
  apply (non_object_reply_raises_TypeError (always (inr Edge.list_reply))
           Sample.req Sample.world_one 200 (PList [PStr "Issue: ..."])).
  - reflexivity.
  - discriminate.
Defined.

(** X12: a [choices] member that is a string is never taken for a
    completion: an empty string fails at [[0]] with [IndexError], and a
    non-empty one is subscripted to its first character, which then fails
    at [["message"]] with [TypeError]. *)
Theorem string_choices_raise network (req : AnalyzeRequest) (w : World)
    (status : Z) (d : gmap string pyval) (s : string) :
  network (outbound w) (call_of w req)
    = inr {| status_code := status; body := Some (PDict d) |} →
  d !! "choices" = Some (PStr s) →
  (analyze network req w).1
  = inl (if decide (s = EmptyString) then IndexError else TypeError).
Proof.
  intros Hnet Hc. rewrite (analyze_object_reply _ _ _ _ _ Hnet), Hc.
  cbn [getitem]. rewrite seq_index_0.
  destruct s as [|c s]; [done |]. by case_decide.
Qed.

Lemma string_choices_raise_witness :
  (analyze (always (inr Edge.string_choices)) Sample.req Sample.world_one).1
  = inl (if decide ("none" = EmptyString) then IndexError else TypeError).
Proof.
  apply (string_choices_raise (always (inr Edge.string_choices)) Sample.req
           Sample.world_one 200 {[ "choices" := PStr "none" ]} "none");
    reflexivity.
Defined.

(** ** The text of the prompt *)

Lemma occurs_in_app_r (s t post : string) :
  Str.occurs_in s t → Str.occurs_in s (t +:+ post).
Proof.
  intros [a [b ->]]. exists a, (b +:+ post). by rewrite !StrFacts.app_assoc.
Qed.

Lemma occurs_in_head (s : string) (req : AnalyzeRequest) :
  Str.contains s prompt_head = true → Str.occurs_in s (render_prompt req).
Proof.
  intros H. apply StrFacts.contains_occurs_in in H.
  unfold render_prompt. by apply occurs_in_app_r.
Qed.

Lemma occurs_in_tail (s : string) (req : AnalyzeRequest) :
  Str.contains s prompt_tail = true → Str.occurs_in s (render_prompt req).
Proof.
  intros H. apply StrFacts.contains_occurs_in in H.
  unfold render_prompt. by do 4 apply StrFacts.occurs_in_app_l.
Qed.

Lemma str_or_nonempty (x d : string) : x ≠ EmptyString → str_or x d = x.
Proof. intros Hx. unfold str_or. by case_decide. Qed.

Lemma app_nonempty_l (a b : string) : a ≠ EmptyString → a +:+ b ≠ EmptyString.
Proof. by destruct a. Qed.

Lemma app_nonempty_r (a b : string) : b ≠ EmptyString → a +:+ b ≠ EmptyString.
Proof. destruct a; [done |]. by rewrite StrFacts.app_cons. Qed.

(** X13: the placeholders cannot be told from input that spells them: a
    request whose code is the text [[EMPTY CODE]] renders the prompt of an
    empty code, and one whose error is the text [No error message] renders
    the prompt of a null error. *)
Theorem placeholders_collide_with_input (c : string) (e : option string) :
  render_prompt {| code := "[EMPTY CODE]"; error := e |}
    = render_prompt {| code := EmptyString; error := e |}
  ∧ render_prompt {| code := c; error := Some "No error message" |}
    = render_prompt {| code := c; error := None |}.
Proof. split; reflexivity. Qed.

(** X14: whatever the request holds, the prompt opens with the tutor
    instructions, among them that no solution code must be given, carries
    the two headings, and closes with the four questions: the input can
    add to the prompt but cannot remove any of it. *)
Theorem instructions_always_present (req : AnalyzeRequest) :
  String.prefix prompt_head (render_prompt req) = true
  ∧ Forall (λ t, Str.occurs_in t (render_prompt req))
      [ "you must not provide the solution code itself, and only guidance.";
        "Student code:";
        "Error message:";
        "1. What is the issue?";
        "2. Why did it happen?";
        "3. How to fix it?";
        "4. Give a minimal example or a hint." ].
Proof.
  split.
  - apply StrFacts.prefix_app. by eexists.
  - repeat constructor.
    + by apply occurs_in_head.
    + by apply occurs_in_head.
    + unfold render_prompt. apply StrFacts.occurs_in_app_l, StrFacts.occurs_in_app_l.
      apply occurs_in_app_r. by apply StrFacts.contains_occurs_in.
    + by apply occurs_in_tail.
    + by apply occurs_in_tail.
    + by apply occurs_in_tail.
    + by apply occurs_in_tail.
Qed.

(** X15: the two fields are pasted into the prompt as they are, with
    nothing that delimits or escapes them: code that contains the text
    between the two slots moves the border between code and error, so two
    different requests render the same prompt. *)
Theorem fields_are_not_delimited (a b c : string) :
  a ≠ EmptyString →
  c ≠ EmptyString →
  a +:+ prompt_mid +:+ b ≠ a
  ∧ render_prompt {| code := a +:+ prompt_mid +:+ b; error := Some c |}
    = render_prompt {| code := a; error := Some (b +:+ prompt_mid +:+ c) |}.
Proof.
  intros Ha Hc. split.
  - intros Heq. apply (f_equal String.length) in Heq.
    rewrite !StrFacts.app_length in Heq. simpl in Heq. lia.
  - unfold render_prompt; cbn [code error opt_str_or].
    rewrite !str_or_nonempty; try done.
    + by rewrite !StrFacts.app_assoc.
    + by apply app_nonempty_r, app_nonempty_l.
    + by apply app_nonempty_l.
Qed.

Lemma fields_are_not_delimited_witness :
  "x = 1" +:+ prompt_mid +:+ "ZeroDivisionError" ≠ "x = 1"
  ∧ render_prompt {| code := "x = 1" +:+ prompt_mid +:+ "ZeroDivisionError";
                     error := Some "NameError" |}
    = render_prompt {| code := "x = 1";
                     error := Some ("ZeroDivisionError" +:+ prompt_mid +:+ "NameError") |}.
Proof.
  apply (fields_are_not_delimited "x = 1" "ZeroDivisionError" "NameError");
    discriminate.
Defined.
